(** * OpenCL address spaces of triSYCL, C++ style

    A verification development for
    [include/CL/implementation/sycl-address-spaces.hpp].

    The header is template code: most of what it does happens when the
    compiler instantiates it.  The development therefore has three layers.

    - The type level ([cpp], [std], [sycl.trisycl.OpenCLType],
      [sycl.trisycl.AddressSpaceImpl]): C++ types are a small syntax tree and
      the alias templates of the header are functions on it.
    - The class level ([sycl.trisycl.declaration]): the six class templates
      are transcribed member by member (bases, static assertion, data member,
      constructors, conversion function); the questions a compiler answers
      about them (which constructor, which conversion, is the body
      well-formed) are functions on these declarations.
    - The value level: constructors and conversion operators are functions on
      a store that maps the address of a wrapper to what its storage holds;
      a C++ reference is the address it designates together with its type.

    Language rules that the header relies on are quoted where they are
    modelled, by the section of the C++ standard that states them. *)

From Stdlib Require Import ZArith Floats.
From stdpp Require Import base option list gmap strings.

Local Open Scope Z_scope.
Local Open Scope string_scope.
Set Warnings "-register-all".

(** ** The language: types *)

Module cpp.

(** The types a wrapper can be asked to hold.  [t_const] is a top-level
    [const]; memory-region qualifiers are not part of this syntax, they are
    added by [OpenCLType] on top of it (see [storage_type]). *)
Inductive type :=
| t_void
| t_bool
| t_char
| t_int
| t_long
| t_float
| t_double
| t_nullptr_t
| t_union (name : string)
| t_class (name : string)
| t_pointer (pointee : type)
| t_array (element : type) (extent : nat)
| t_array_unknown_bound (element : type)
| t_const (t : type).

#[global] Instance type_eq_dec : EqDecision type.
Proof. solve_decision. Defined.

(** OpenCL 2 address space qualifiers, as the device compiler spells them. *)
Inductive qualifier := __constant | __generic | __global | __local | __private.

#[global] Instance qualifier_eq_dec : EqDecision qualifier.
Proof. solve_decision. Defined.

(** A type as a declaration uses it: the unqualified type and the address
    space qualifier in front of it, if any. *)
Record storage_type := Storage {
  qualified_by : option qualifier;
  unqualified : type
}.

#[global] Instance storage_type_eq_dec : EqDecision storage_type.
Proof. solve_decision. Defined.

(** [std::remove_cv] for the qualifier this syntax has. *)
Fixpoint remove_cv (t : type) : type :=
  match t with
  | t_const t' => remove_cv t'
  | _ => t
  end.

Definition is_arithmetic (t : type) : bool :=
  match remove_cv t with
  | t_bool | t_char | t_int | t_long | t_float | t_double => true
  | _ => false
  end.

(** Scalar types ([basic.types]): arithmetic types, pointers and
    [std::nullptr_t]. *)
Definition is_scalar (t : type) : bool :=
  match remove_cv t with
  | t_bool | t_char | t_int | t_long | t_float | t_double
  | t_nullptr_t | t_pointer _ => true
  | _ => false
  end.

(** ** The language: implicit conversions between types *)

Definition is_const (t : type) : bool :=
  match t with
  | t_const _ => true
  | _ => false
  end.

(** The type without [const], on the type and on the elements of an array
    (a const array is an array of const elements, [basic.type.qualifier]). *)
Fixpoint remove_const (t : type) : type :=
  match t with
  | t_const t' => remove_const t'
  | t_array E N => t_array (remove_const E) N
  | t_array_unknown_bound E => t_array_unknown_bound (remove_const E)
  | _ => t
  end.

(** The type of an expression once it is used as a prvalue: an array becomes
    a pointer to its first element ([conv.array]), and a top-level [const]
    goes ([expr.type]). *)
Definition decay (t : type) : type :=
  match remove_cv t with
  | t_array E _ | t_array_unknown_bound E => t_pointer E
  | t' => t'
  end.

(** Pointer and qualification conversions ([conv.ptr], [conv.qual]) from
    "pointer to [P]" to "pointer to [Q]": the same pointee or [void], and
    [const] may be added.  Conversions from a pointer to a derived class of
    the program to a pointer to its base are not part of the model: the
    classes of the program come without their hierarchy. *)
Definition pointer_conversion (P Q : type) : bool :=
  implb (is_const P) (is_const Q)
  && (bool_decide (remove_cv P = remove_cv Q)
      || bool_decide (remove_cv Q = t_void)).

(** [standard_conversion from to]: an expression of type [from] converts
    implicitly to type [to] by a standard conversion sequence ([conv]).
    Arithmetic types convert to one another; a pointer converts to [bool]
    and, see above, to some pointers; no conversion leads from a pointer to
    an arithmetic type other than [bool], and none leads to an array.  A
    class converts to itself; conversions that a class of the program
    declares are outside the model. *)
Definition standard_conversion (from to : type) : bool :=
  match decay from, remove_cv to with
  | t_pointer P, t_pointer Q => pointer_conversion P Q
  | t_pointer _, t_bool => true
  | t_nullptr_t, t_pointer _ | t_nullptr_t, t_nullptr_t => true
  | t_class n, t_class n' | t_union n, t_union n' => bool_decide (n = n')
  | f, t => is_arithmetic f && is_arithmetic t
  end.

Definition is_floating (t : type) : bool :=
  match remove_cv t with
  | t_float | t_double => true
  | _ => false
  end.

(** Integer conversion rank, for the integral types of the model. *)
Definition rank (t : type) : nat :=
  match remove_cv t with
  | t_bool => 0
  | t_char => 1
  | t_int => 2
  | t_long => 3
  | _ => 4
  end.

(** Narrowing conversions ([dcl.init.list]) from an expression that is not
    a constant: between integers and floating point in either direction,
    to a type that cannot hold every value of the source, and from a
    pointer to [bool]. *)
Definition narrowing (from to : type) : bool :=
  match decay from with
  | t_pointer _ | t_nullptr_t => is_arithmetic to
  | f =>
      is_arithmetic f && is_arithmetic to
      && (xorb (is_floating f) (is_floating to)
          || (if is_floating f
              then bool_decide (remove_cv f = t_double)
                   && bool_decide (remove_cv to = t_float)
              else bool_decide (rank to < rank f)%nat))
  end.

Inductive value_category := lvalue | prvalue.

(** An element of type [to] of a braced list is initialised from an
    expression of type [from]. *)
Definition list_initializes (to from : type) : bool :=
  standard_conversion from to && negb (narrowing from to).

(** Aggregate initialisation of an array from a list whose first clause is
    an expression: the expression initialises the first element and, when
    that element is itself an array, braces are taken as elided and it goes
    to the first element of that one ([dcl.init.aggr]). *)
Fixpoint first_scalar (t : type) : type :=
  match t with
  | t_array E _ | t_array_unknown_bound E => first_scalar E
  | t_const t' => first_scalar t'
  | _ => t
  end.

(** ** The language: values, objects and references *)

Definition address := positive.

(** What an object holds.  A scalar that was default-initialised holds
    [indeterminate]; [double] and [float] values are binary64 numbers. *)
Inductive value :=
| indeterminate
| integer (z : Z)
| floating (f : float)
| pointer (a : option address)
| array (elements : list value)
| object (class_name : string) (members : list value).

(** [has_type v t]: [v] is a value of type [t].  An array value has exactly
    as many elements as its type says; integers lie in the range of their
    type (two's complement, 8, 32 and 64 bits). *)
Fixpoint has_type (v : value) (t : type) {struct t} : bool :=
  match t, v with
  | t_bool, integer z => bool_decide (0 <= z <= 1)
  | t_char, integer z => bool_decide (-128 <= z <= 127)
  | t_int, integer z => bool_decide (-2147483648 <= z <= 2147483647)
  | t_long, integer z =>
      bool_decide (-9223372036854775808 <= z <= 9223372036854775807)
  | t_float, floating _ | t_double, floating _ => true
  | t_nullptr_t, pointer None => true
  | t_pointer _, pointer _ => true
  | t_union n, object n' _ | t_class n, object n' _ => bool_decide (n = n')
  | t_array E N, array l =>
      bool_decide (length l = N) && forallb (fun x => has_type x E) l
  | t_const t', _ => has_type v t'
  | _, _ => false
  end.

(** The memory of the abstract machine: the objects that exist, by address.
    A wrapper of this header has one subobject that holds data (its member
    [variable], or its base class of type [T]); the store maps the address
    of the wrapper to what that subobject holds. *)
Definition store := gmap address value.

(** A reference, or an lvalue: the object it designates, and the type it
    designates it with. *)
Record reference := Reference {
  referenced_type : storage_type;
  designates : address
}.

(** Lvalue-to-rvalue conversion ([conv.lval]). *)
Definition read (r : reference) (s : store) : option value :=
  s !! designates r.

(** Assignment through a reference. *)
Definition write (r : reference) (x : value) (s : store) : store :=
  <[designates r := x]> s.

(** [r[i] = x] through a reference to an array; an index outside the array
    is undefined behaviour, here [None]. *)
Definition write_element (r : reference) (i : nat) (x : value) (s : store)
  : option store :=
  match read r s with
  | Some (array l) =>
      if decide (i < length l)%nat
      then Some (write r (array (<[i := x]> l)) s)
      else None
  | _ => None
  end.

(** [&r]: the pointer value, and the type the pointee is declared with. *)
Definition address_of (r : reference) : value * storage_type :=
  (pointer (Some (designates r)), referenced_type r).

(** What a piece of the program comes to: a result, a rejection by the
    compiler, or an execution that leaves the abstract machine. *)
Inductive outcome (A : Type) :=
| ok (a : A)
| ill_formed (diagnostic : string)
| undefined_behaviour.
Arguments ok {A} a.
Arguments ill_formed {A} diagnostic.
Arguments undefined_behaviour {A}.

#[global] Instance outcome_bind : MBind outcome := fun A B f x =>
  match x with
  | ok a => f a
  | ill_formed d => ill_formed d
  | undefined_behaviour => undefined_behaviour
  end.

(** What the header needs to know of a class or union of the program that
    uses it.  [default_constructor] is what the default constructor leaves in
    a new object, [None] for a class that has no default constructor that
    can be called.  The class is const-default-constructible ([dcl.init]/7)
    when that constructor is user-provided or every member has a default
    initialiser.  It is copy-constructible when an object can be initialised
    from an lvalue of the class, and copy-assignable when such an lvalue can
    be assigned to an object: a class whose copy operations are deleted, a
    move-only class, is neither. *)
Record class_description := {
  default_constructor : option value;
  const_default_constructible : bool;
  copy_constructible : bool;
  copy_assignable : bool
}.

(** A type whose objects exist ([basic.types]): not [void], and not an array
    whose length or element type is unknown. *)
Fixpoint is_complete_object_type (t : type) : bool :=
  match t with
  | t_void | t_array_unknown_bound _ => false
  | t_array E _ => is_complete_object_type E
  | t_const t' => is_complete_object_type t'
  | _ => true
  end.

Section classes_of_the_program.

(** The classes of the program that uses the header, by name.  They are
    defined where the header is used: a class type is complete. *)
Variable classes : string -> class_description.

(** A const object can be default-initialised only if its type is a
    const-default-constructible class, or an array of such ([dcl.init]/7). *)
Fixpoint is_const_default_constructible (t : type) : bool :=
  match t with
  | t_union name | t_class name => const_default_constructible (classes name)
  | t_array E _ => is_const_default_constructible E
  | t_const t' => is_const_default_constructible t'
  | _ => false
  end.

(** Default-initialisation ([dcl.init]/7) of an object of type [t]: nothing
    is done for a scalar, each element of an array is default-initialised,
    and the default constructor of a class runs.  [None] where the
    declaration [t x;] is ill-formed: the class has no default constructor,
    or the type is const and not const-default-constructible. *)
Fixpoint default_initialize (t : type) : option value :=
  match t with
  | t_bool | t_char | t_int | t_long | t_float | t_double
  | t_nullptr_t | t_pointer _ => Some indeterminate
  | t_union name | t_class name => default_constructor (classes name)
  | t_array E N => (fun x => array (replicate N x)) <$> default_initialize E
  | t_const t' =>
      if is_const_default_constructible t' then default_initialize t' else None
  | t_void | t_array_unknown_bound _ => None
  end.

(** Value-initialisation ([dcl.init]/8): a scalar is zero, each element of
    an array is value-initialised, the default constructor of a class
    runs. *)
Fixpoint value_initialize (t : type) : option value :=
  match t with
  | t_bool | t_char | t_int | t_long => Some (integer 0)
  | t_float | t_double => Some (floating 0%float)
  | t_nullptr_t | t_pointer _ => Some (pointer None)
  | t_union name | t_class name => default_constructor (classes name)
  | t_array E N => (fun x => array (replicate N x)) <$> value_initialize E
  | t_const t' => value_initialize t'
  | t_void | t_array_unknown_bound _ => None
  end.

(** [x = y] for an lvalue [x] of type [t] and an lvalue [y] of the same
    type: a scalar is assigned, a class by its copy assignment operator;
    an array is not assignable, and neither is a const object
    ([expr.ass]). *)
Definition is_copy_assignable (t : type) : bool :=
  match t with
  | t_bool | t_char | t_int | t_long | t_float | t_double
  | t_nullptr_t | t_pointer _ => true
  | t_union name | t_class name => copy_assignable (classes name)
  | t_void | t_array _ _ | t_array_unknown_bound _ | t_const _ => false
  end.

(** An object of type [t] initialised from an lvalue of type [t]: a scalar
    is copied, a class by its copy constructor; an array is not
    initialised from another array ([dcl.init]/17). *)
Definition is_copy_constructible (t : type) : bool :=
  match remove_cv t with
  | t_union name | t_class name => copy_constructible (classes name)
  | t_void | t_array _ _ | t_array_unknown_bound _ => false
  | _ => true
  end.

End classes_of_the_program.

(** A class with no default constructor, whose objects can be copied and
    assigned, and a class whose user-provided default constructor leaves
    [members] in a new object. *)
Definition without_default_constructor : class_description :=
  {| default_constructor := None;
     const_default_constructible := false;
     copy_constructible := true;
     copy_assignable := true |}.

Definition with_default_constructor (name : string) (members : list value)
  : class_description :=
  {| default_constructor := Some (object name members);
     const_default_constructible := true;
     copy_constructible := true;
     copy_assignable := true |}.


(** The value [x] of an aggregate with its first scalar replaced; an array
    of no element has none. *)
Fixpoint set_first_scalar (x first : value) : option value :=
  match x with
  | array (e :: rest) =>
      (fun e' => array (e' :: rest)) <$> set_first_scalar e first
  | array [] => None
  | _ => Some first
  end.

(** Conversion of an integer to binary64, rounding to nearest, ties to
    even ([conv.fpint]). *)
Definition float_of_Z (z : Z) : float :=
  SF2Prim (binary_normalize prec emax z 0 false).

(** The values of the standard conversions that the examples of this file
    use: an integer converts to the floating-point number that represents
    it; a value converted to its own type, or a pointer converted to
    another pointer type, is the same value. *)
Definition convert_value (from to : type) (x : value) : value :=
  match x with
  | integer z => if is_floating to then floating (float_of_Z z) else x
  | _ => x
  end.

End cpp.

(** ** The standard library: type traits *)

Module std.
Import cpp.

(** [std::is_pointer<T>::value]: object pointers, cv-qualified or not;
    [std::nullptr_t] is not one ([meta.unary.cat]). *)
Definition is_pointer (T : type) : bool :=
  match remove_cv T with
  | t_pointer _ => true
  | _ => false
  end.

(** [std::is_class<T>::value]: classes and structs, not unions. *)
Definition is_class (T : type) : bool :=
  match remove_cv T with
  | t_class _ => true
  | _ => false
  end.

(** [std::is_array<T>::value]: arrays of known and of unknown bound. *)
Definition is_array (T : type) : bool :=
  match remove_cv T with
  | t_array _ _ | t_array_unknown_bound _ => true
  | _ => false
  end.

(** [std::remove_extent_t<T>]: the element type of an array type, any other
    type unchanged. *)
Definition remove_extent_t (T : type) : type :=
  match T with
  | t_array E _ | t_array_unknown_bound E => E
  | _ => T
  end.

(** [std::conditional<B, T, F>::type] *)
Definition conditional {A : Type} (B : bool) (T F : A) : A :=
  if B then T else F.

(** [std::copy(first, last, d_first)], with [source] the elements of
    [first, last) and [d_first] an index into the array [destination]:
    [while (first != last) *d_first++ = *first++;].  The library checks no
    bound; assigning through an iterator past the end of the array is
    undefined behaviour, here [None]. *)
Fixpoint copy (source destination : list value) (d_first : nat)
  : option (list value) :=
  match source with
  | [] => Some destination
  | x :: rest =>
      if decide (d_first < length destination)%nat
      then copy rest (<[d_first := x]> destination) (S d_first)
      else None
  end.

End std.

(** ** namespace cl::sycl *)

Module sycl.
Import cpp.

(** Modelled from the spec: the enumeration [cl::sycl::address_space] is
    declared outside this header.  The spec (section 3, RegionTag) gives it as
    a closed set of five values, generic, global, local, private and
    constant; the names are the ones the header's specialisations use. *)
Inductive address_space :=
| constant_address_space
| generic_address_space
| global_address_space
| local_address_space
| private_address_space.

#[global] Instance address_space_eq_dec : EqDecision address_space.
Proof. solve_decision. Defined.

(** ** namespace cl::sycl::trisycl *)

Module trisycl.

Section translation_unit.

(** Whether [__SYCL_DEVICE_ONLY__] is defined for this translation unit. *)
Variable __SYCL_DEVICE_ONLY__ : bool.

(** The [#ifdef __SYCL_DEVICE_ONLY__ q #endif T] of each specialisation. *)
Definition ifdef_qualified (q : qualifier) (T : type) : storage_type :=
  Storage (if __SYCL_DEVICE_ONLY__ then Some q else None) T.

(** [OpenCLType<T, AS>::type] (lines 24 to 77).  Every value of the
    enumeration has a specialisation, so the primary template, which leaves
    [T] alone, is never the one selected. *)
Definition OpenCLType (T : type) (AS : address_space) : storage_type :=
  match AS with
  | constant_address_space => ifdef_qualified __constant T
  | generic_address_space => ifdef_qualified __generic T
  | global_address_space => ifdef_qualified __global T
  | local_address_space => ifdef_qualified __local T
  | private_address_space => ifdef_qualified __private T
  end.

(** The class templates of the header. *)
Inductive template_name :=
| AddressSpaceBaseImpl
| AddressSpaceVariableImpl
| AddressSpaceFundamentalImpl
| AddressSpacePointerImpl
| AddressSpaceArrayImpl
| AddressSpaceObjectImpl.

#[global] Instance template_name_eq_dec : EqDecision template_name.
Proof. solve_decision. Defined.

(** [Template<T, AS>]: the name of a specialisation.  Naming one does not
    instantiate it. *)
Record specialization := Specialization {
  template : template_name;
  argument_T : type;
  argument_AS : address_space
}.

(** [AddressSpaceImpl<T, AS>] (lines 101 to 110) *)
Definition AddressSpaceImpl (T : type) (AS : address_space) : specialization :=
  std.conditional (std.is_pointer T)
    (Specialization AddressSpacePointerImpl T AS)
  (std.conditional (std.is_class T)
    (Specialization AddressSpaceObjectImpl T AS)
  (std.conditional (std.is_array T)
    (Specialization AddressSpaceArrayImpl T AS)
    (Specialization AddressSpaceFundamentalImpl T AS))).

(** ** The class templates, member by member *)

(** The three members that [AddressSpaceBaseImpl] gives every wrapper
    (lines 128, 134 and 138). *)
Record member_aliases := Aliases {
  type : cpp.type;
  opencl_type : storage_type;
  address_space : sycl.address_space
}.

(** The parameter of a constructor that takes one. *)
Inductive parameter :=
| const_T_reference                          (* const T & *)
| T_rvalue_reference                         (* T && *)
| initializer_list_of_elements
    (* std::initializer_list<std::remove_extent_t<T>> *)
| wrapper_reference (t : template_name).
    (* t<SomeType, SomeAS> &, a template over SomeType and SomeAS *)

#[global] Instance parameter_eq_dec : EqDecision parameter.
Proof. solve_decision. Defined.

Inductive constructor_declaration :=
| constructor (p : parameter)                (* X(p) ... *)
| defaulted_default_constructor              (* X() = default; *)
| using_constructors_of_wrapper_base         (* using super::Base; *)
| using_constructors_of_opencl_type.         (* using opencl_type::opencl_type; *)

#[global] Instance constructor_declaration_eq_dec :
  EqDecision constructor_declaration.
Proof. solve_decision. Defined.

(** The operand of the [return] statement of a conversion function. *)
Inductive returned := return_variable | return_this.

(** A class of the header once its template arguments are fixed.  A wrapper
    has at most one base that is itself a wrapper, and at most one base of
    type [opencl_type]. *)
Inductive class_declaration := Class {
  class_template : template_name;
  opencl_type_base : option storage_type;
  wrapper_base : option class_declaration;
  static_assertion : option (bool * string);
  aliases : option member_aliases;
  variable : option storage_type;
  constructors : list constructor_declaration;
  conversion_function : option (storage_type * returned)
}.

(** Lines 122 to 140 *)
Definition declaration_AddressSpaceBaseImpl
  (T : cpp.type) (AS : sycl.address_space) : class_declaration :=
  {| class_template := AddressSpaceBaseImpl;
     opencl_type_base := None;
     wrapper_base := None;
     static_assertion := None;
     aliases := Some (Aliases T (OpenCLType T AS) AS);
     variable := None;
     constructors := [];
     conversion_function := None |}.

(** Lines 149 to 190 *)
Definition declaration_AddressSpaceVariableImpl
  (T : cpp.type) (AS : sycl.address_space) : class_declaration :=
  {| class_template := AddressSpaceVariableImpl;
     opencl_type_base := None;
     wrapper_base := Some (declaration_AddressSpaceBaseImpl T AS);
     static_assertion := None;
     aliases := None;
     variable := Some (OpenCLType T AS);
     constructors :=
       [constructor const_T_reference; defaulted_default_constructor];
     conversion_function := Some (OpenCLType T AS, return_variable) |}.

(** Lines 201 to 247 *)
Definition declaration_AddressSpaceFundamentalImpl
  (T : cpp.type) (AS : sycl.address_space) : class_declaration :=
  {| class_template := AddressSpaceFundamentalImpl;
     opencl_type_base := None;
     wrapper_base := Some (declaration_AddressSpaceVariableImpl T AS);
     static_assertion := None;
     aliases := None;
     variable := None;
     constructors :=
       [using_constructors_of_wrapper_base; defaulted_default_constructor;
        constructor (wrapper_reference AddressSpaceFundamentalImpl)];
     conversion_function := None |}.

(** Lines 259 to 271 *)
Definition declaration_AddressSpacePointerImpl
  (T : cpp.type) (AS : sycl.address_space) : class_declaration :=
  {| class_template := AddressSpacePointerImpl;
     opencl_type_base := None;
     wrapper_base := Some (declaration_AddressSpaceFundamentalImpl T AS);
     static_assertion := Some (std.is_pointer T, "T must be a pointer type");
     aliases := None;
     variable := None;
     constructors := [using_constructors_of_wrapper_base];
     conversion_function := None |}.

(** Lines 280 to 360 *)
Definition declaration_AddressSpaceArrayImpl
  (T : cpp.type) (AS : sycl.address_space) : class_declaration :=
  {| class_template := AddressSpaceArrayImpl;
     opencl_type_base := None;
     wrapper_base := Some (declaration_AddressSpaceBaseImpl T AS);
     static_assertion := None;
     aliases := None;
     variable := Some (OpenCLType T AS);
     constructors :=
       [constructor const_T_reference;
        constructor initializer_list_of_elements;
        defaulted_default_constructor;
        using_constructors_of_wrapper_base;
        constructor (wrapper_reference AddressSpaceArrayImpl)];
     conversion_function := Some (OpenCLType T AS, return_variable) |}.

(** Lines 376 to 404 *)
Definition declaration_AddressSpaceObjectImpl
  (T : cpp.type) (AS : sycl.address_space) : class_declaration :=
  {| class_template := AddressSpaceObjectImpl;
     opencl_type_base := Some (OpenCLType T AS);
     wrapper_base := Some (declaration_AddressSpaceBaseImpl T AS);
     static_assertion := None;
     aliases := None;
     variable := None;
     constructors :=
       [using_constructors_of_opencl_type; constructor T_rvalue_reference];
     conversion_function := Some (OpenCLType T AS, return_this) |}.

Definition declaration (s : specialization) : class_declaration :=
  let T := argument_T s in
  let AS := argument_AS s in
  match template s with
  | AddressSpaceBaseImpl => declaration_AddressSpaceBaseImpl T AS
  | AddressSpaceVariableImpl => declaration_AddressSpaceVariableImpl T AS
  | AddressSpaceFundamentalImpl => declaration_AddressSpaceFundamentalImpl T AS
  | AddressSpacePointerImpl => declaration_AddressSpacePointerImpl T AS
  | AddressSpaceArrayImpl => declaration_AddressSpaceArrayImpl T AS
  | AddressSpaceObjectImpl => declaration_AddressSpaceObjectImpl T AS
  end.

(** ** What the compiler finds in a class *)

(** Lookup of the member [variable], in the class and then in its bases. *)
Fixpoint find_variable (c : class_declaration) : option storage_type :=
  match variable c with
  | Some s => Some s
  | None =>
      match wrapper_base c with
      | Some b => find_variable b
      | None => None
      end
  end.

Fixpoint find_aliases (c : class_declaration) : option member_aliases :=
  match aliases c with
  | Some a => Some a
  | None =>
      match wrapper_base c with
      | Some b => find_aliases b
      | None => None
      end
  end.

(** Lookup of the conversion function: the class that declares it, the type
    [R] of its name [operator R & ()], and what it returns. *)
Fixpoint find_conversion_function (c : class_declaration)
  : option (class_declaration * storage_type * returned) :=
  match conversion_function c with
  | Some (R, e) => Some (c, R, e)
  | None =>
      match wrapper_base c with
      | Some b => find_conversion_function b
      | None => None
      end
  end.

(** The subobject of a wrapper that holds data, by its declared type: the
    member [variable], or the base class of type [opencl_type]. *)
Fixpoint storage (c : class_declaration) : option storage_type :=
  match variable c, opencl_type_base c with
  | Some s, _ => Some s
  | None, Some s => Some s
  | None, None =>
      match wrapper_base c with
      | Some b => storage b
      | None => None
      end
  end.

Fixpoint derives_from (c : class_declaration) (t : template_name) : bool :=
  bool_decide (class_template c = t)
  || match wrapper_base c with
     | Some b => derives_from b t
     | None => false
     end.

(** The declarations of the subobjects of [c]: a base class is a class
    ([class.derived]), and a data member has a type whose objects exist, so
    neither [void] (line 167) nor an array of unknown bound (line 294)
    ([class.mem]). *)
Definition subobjects_well_formed (c : class_declaration) : outcome unit :=
  match opencl_type_base c with
  | Some B =>
      if std.is_class (unqualified B) then ok ()
      else ill_formed "the base type is not a class"
  | None => ok ()
  end ≫= fun _ =>
  match variable c with
  | Some V =>
      if is_complete_object_type (unqualified V) then ok ()
      else ill_formed "the member variable has an incomplete type"
  | None => ok ()
  end.

(** Implicit instantiation of the class ([temp.inst]): its static assertion
    is evaluated, its bases are instantiated and its subobjects are
    declared.  A compiler reports every one of these that fails; of several
    the model keeps one, the static assertion of the class first. *)
Fixpoint instantiate (c : class_declaration) : outcome unit :=
  match static_assertion c with
  | Some (false, message) => ill_formed message
  | _ =>
      match match wrapper_base c with
            | Some b => instantiate b
            | None => ok ()
            end with
      | ok _ => subobjects_well_formed c
      | failure => failure
      end
  end.

(** *** Constructors *)

(** A using-declaration of constructors is not a constructor declared by the
    user; [X() = default;] is one ([class.default.ctor]). *)
Definition user_declared (d : constructor_declaration) : bool :=
  match d with
  | constructor _ | defaulted_default_constructor => true
  | using_constructors_of_wrapper_base
  | using_constructors_of_opencl_type => false
  end.

Definition declares (c : class_declaration) (d : constructor_declaration)
  : bool :=
  existsb (fun d' => bool_decide (d' = d)) (constructors c).

(** The constructors that take one argument and are candidates when an object
    of class [c] is initialised ([over.match.ctor]), each with the class that
    declares it: the ones [c] declares, then the ones of its base that a
    using-declaration names ([namespace.udecl], as amended by P0136R1). *)
Fixpoint converting_constructors (c : class_declaration)
  : list (template_name * parameter) :=
  omap (fun d => match d with
                 | constructor p => Some (class_template c, p)
                 | _ => None
                 end) (constructors c)
  ++ (if declares c using_constructors_of_wrapper_base
      then match wrapper_base c with
           | Some b => converting_constructors b
           | None => []
           end
      else []).

(** The classes that the program wraps (see [cpp.class_description]). *)
Variable classes : string -> class_description.

Abbreviation default_initialize := (cpp.default_initialize classes).

(** Whether [X x;] finds a default constructor: one that the class declares,
    the implicit one of a class with no user-declared constructor
    ([class.default.ctor]), or the default constructor of a base whose
    constructors a using-declaration names (P0136R1: all constructors of the
    base are then candidates, except where they would copy or move). *)
Fixpoint has_default_constructor (c : class_declaration) : bool :=
  declares c defaulted_default_constructor
  || forallb (fun d => negb (user_declared d)) (constructors c)
  || (declares c using_constructors_of_wrapper_base
      && match wrapper_base c with
         | Some b => has_default_constructor b
         | None => false
         end)
  || (declares c using_constructors_of_opencl_type
      && match opencl_type_base c with
         | Some B => bool_decide (is_Some (default_initialize (unqualified B)))
         | None => false
         end).

(** The default constructor exists and is not deleted: every base and member
    can be default-initialised ([class.default.ctor], [class.inhctor.init]). *)
Fixpoint default_constructible (c : class_declaration) : bool :=
  has_default_constructor c
  && match opencl_type_base c with
     | Some B => bool_decide (is_Some (default_initialize (unqualified B)))
     | None => true
     end
  && match wrapper_base c with
     | Some b => default_constructible b
     | None => true
     end
  && match variable c with
     | Some V => bool_decide (is_Some (default_initialize (unqualified V)))
     | None => true
     end.

(** What is handed to a constructor, as far as its type goes. *)
Inductive argument :=
| expression (k : value_category) (U : cpp.type)
    (* an expression of type U *)
| initializer_list (E : cpp.type)
    (* a std::initializer_list<E> *)
| wrapper (s : specialization).
    (* an lvalue of a wrapper class *)

(** [viable T p a]: the constructor of a wrapper of [T] with parameter [p]
    accepts the argument [a] ([over.match.viable]).  [const T &] binds to an
    expression that converts to [T]; for an array type that is an array of
    the same type, const apart, since nothing converts to an array
    ([dcl.init.ref]).  [T &&] binds to an rvalue of type [T], not to an
    lvalue.  The length of an initializer list is not part of its type.  A
    wrapper argument is matched by the constructor template that names its
    class or a base of it; its conversion to [T] through its own
    conversion function, which ranks below that match, is left out. *)
Definition viable (T : cpp.type) (p : parameter) (a : argument) : bool :=
  match p, a with
  | const_T_reference, expression _ U =>
      if std.is_array T
      then bool_decide (remove_const U = remove_const T)
      else standard_conversion U T
  | T_rvalue_reference, expression prvalue U =>
      bool_decide (remove_const U = remove_const T)
  | initializer_list_of_elements, initializer_list E =>
      bool_decide (E = std.remove_extent_t T)
  | wrapper_reference t, wrapper s => derives_from (declaration s) t
  | _, _ => false
  end.

(** The constructor of [s] that initialises an object from [a], with the
    class that declares it. *)
Definition select (s : specialization) (a : argument)
  : option (template_name * parameter) :=
  snd <$> list_find (fun '(_, p) => viable (argument_T s) p a = true)
            (converting_constructors (declaration s)).

(** ** Conversion functions *)

(** The type and value category of the operand of [return]. *)
Inductive operand_type :=
| lvalue_of_type (t : storage_type)
| prvalue_pointer_to (t : template_name).

(** Inside a member function of [c], [variable] names the member found by
    lookup, an lvalue of its declared type; [this] is a prvalue, a pointer
    to the class ([class.this]). *)
Definition type_of_returned (c : class_declaration) (e : returned)
  : option operand_type :=
  match e with
  | return_variable => lvalue_of_type <$> find_variable c
  | return_this => Some (prvalue_pointer_to (class_template c))
  end.

(** [return e;] in a function that returns [R &]: the reference binds to an
    lvalue of type [R]; a reference to non-const never binds to a prvalue
    ([dcl.init.ref]). *)
Definition binds (R : storage_type) (e : operand_type) : bool :=
  match e with
  | lvalue_of_type t => bool_decide (t = R)
  | prvalue_pointer_to _ => false
  end.

(** [operator opencl_type & ()] (lines 188, 358 and 402), called on the
    wrapper at address [this].  Where the return statement is well-formed
    it returns [variable], the storage of that wrapper. *)
Definition operator_opencl_type_reference
  (c : class_declaration) (this : address) : outcome reference :=
  match find_conversion_function c with
  | None => ill_formed "no conversion function"
  | Some (declaring, R, e) =>
      match type_of_returned declaring e with
      | None => ill_formed "variable was not declared in this scope"
      | Some t =>
          if binds R t
          then ok (Reference R this)
          else ill_formed
                 "invalid initialization of a non-const reference from an rvalue"
      end
  end.

(** Implicit conversion of the wrapper at [this] to an lvalue of type
    [opencl_type].  A conversion function is never used to convert an object
    to a base class of its type ([class.conv.fct]/1): a wrapper that derives
    from [opencl_type] converts by the derived-to-base conversion, to its
    base class subobject. *)
Definition convert_to_opencl_type
  (c : class_declaration) (this : address) : outcome reference :=
  match opencl_type_base c with
  | Some B => ok (Reference B this)
  | None => operator_opencl_type_reference c this
  end.

(** ** Constructors and what they store *)

(** Line 174: [AddressSpaceVariableImpl(const T & v) : variable(v) { }] *)
Definition AddressSpaceVariableImpl_from_value
  (this : address) (v : value) (m : store) : store :=
  <[this := v]> m.

(** Line 394: [AddressSpaceObjectImpl(T && v) : opencl_type(v) { }].  The
    name [v] is an lvalue in the initialiser, whatever it is bound to
    ([expr.prim.id]), so the base class is copy-constructed and never
    move-constructed: the constructor is ill-formed for a class that cannot
    be copied. *)
Definition AddressSpaceObjectImpl_from_value
  (T : cpp.type) (this : address) (v : value) (m : store) : outcome store :=
  if is_copy_constructible classes T
  then ok (<[this := v]> m)
  else ill_formed "the copy constructor of T cannot be called".

(** Lines 300 to 302 and 309 to 311: no initialiser names [variable], so it
    is default-initialised; then
    [std::copy(std::begin(source), std::end(source), std::begin(variable))],
    which assigns each element of the source to an element of [variable]
    and is ill-formed where an element cannot be assigned: when [T] is an
    array of arrays, or of const elements. *)
Definition AddressSpaceArrayImpl_from_elements
  (T : cpp.type) (this : address) (source : list value) (m : store)
  : outcome store :=
  match default_initialize T with
  | Some (array elements) =>
      if is_copy_assignable classes (std.remove_extent_t T)
      then match std.copy source elements 0 with
           | Some elements' => ok (<[this := array elements']> m)
           | None => undefined_behaviour
           end
      else ill_formed "the elements of variable cannot be assigned"
  | _ => ill_formed "variable cannot be default-initialized"
  end.

(** Line 300: [AddressSpaceArrayImpl(const T &array)] *)
Definition AddressSpaceArrayImpl_from_array
  (T : cpp.type) (this : address) (array : value) (m : store)
  : outcome store :=
  match array with
  | cpp.array source => AddressSpaceArrayImpl_from_elements T this source m
  | _ => ill_formed "the argument is not an array"
  end.

(** Line 309:
    [AddressSpaceArrayImpl(std::initializer_list<std::remove_extent_t<T>> list)] *)
Definition AddressSpaceArrayImpl_from_initializer_list
  (T : cpp.type) (this : address) (list : list value) (m : store)
  : outcome store :=
  AddressSpaceArrayImpl_from_elements T this list m.

(** The standard conversions on values: [convert from to x] is the value of
    type [to] that [x], of type [from], converts to. *)
Variable convert : cpp.type -> cpp.type -> value -> value.

(** Lines 239 to 245:
    [template <typename SomeType, address_space SomeAS>
     AddressSpaceFundamentalImpl(AddressSpaceFundamentalImpl<SomeType, SomeAS>& v)
     { super::variable = SomeType(v); }]
    No initialiser names the base class, which is default-constructed.  The
    cast [SomeType(v)] goes through the conversion function of the class of
    [v] and reads what it refers to; the assignment converts from [SomeType]
    to [T] and is ill-formed where no implicit conversion does. *)
Definition AddressSpaceFundamentalImpl_from_wrapper
  (T SomeType : cpp.type) (SomeAS : sycl.address_space)
  (this v : address) (m : store) : outcome store :=
  match default_initialize T with
  | None => ill_formed "the base class cannot be default-initialized"
  | Some d =>
      let m0 := <[this := d]> m in
      r ← operator_opencl_type_reference
             (declaration
                (Specialization AddressSpaceFundamentalImpl SomeType SomeAS))
             v;
      if standard_conversion SomeType T
      then match read r m0 with
           | Some x => ok (<[this := convert SomeType T x]> m0)
           | None => undefined_behaviour
           end
      else ill_formed "cannot convert SomeType to T in assignment"
  end.

(** [t { e }], where [e] is an expression of type [U] that designates the
    object at [a]: the first scalar of [t] is initialised from [e], an array
    [e] decaying to the pointer to its first element; what [e] does not
    reach is value-initialised ([dcl.init.aggr]). *)
Definition braced_initialization
  (t U : cpp.type) (a : address) (m : store) : outcome value :=
  if list_initializes (first_scalar t) U
  then match cpp.value_initialize classes t with
       | None => ill_formed "the type cannot be value-initialized"
       | Some zero =>
           first ← (if std.is_array U
                    then ok (pointer (Some a))
                    else match m !! a with
                         | Some x => ok (convert U (first_scalar t) x)
                         | None => undefined_behaviour
                         end);
           match set_first_scalar zero first with
           | Some x => ok x
           | None => ill_formed "too many initializers"
           end
       end
  else ill_formed "cannot convert the initializer to the element type".

(** Lines 346 to 348:
    [template <typename SomeType, address_space SomeAS>
     AddressSpaceArrayImpl(AddressSpaceArrayImpl<SomeType, SomeAS>& v)
     : variable { SomeType { v } } { }]
    [SomeType { v }] is a temporary whose first scalar is initialised from
    [v], which converts through the conversion function of its class to an
    lvalue of type [SomeType]; [variable { ... }] then has its first scalar
    initialised from that temporary. *)
Definition AddressSpaceArrayImpl_from_wrapper
  (T SomeType : cpp.type) (SomeAS : sycl.address_space)
  (this v : address) (m : store) : outcome store :=
  r ← operator_opencl_type_reference
         (declaration (Specialization AddressSpaceArrayImpl SomeType SomeAS))
         v;
  let temporary := fresh ({[this]} ∪ dom m) in
  t ← braced_initialization SomeType (unqualified (referenced_type r))
         (designates r) m;
  x ← braced_initialization T SomeType temporary (<[temporary := t]> m);
  ok (<[this := x]> m).

(** ** Initialising a wrapper *)

(** [X x;] for the wrapper class [s], at address [this]: each subobject is
    default-initialised. *)
Definition default_construct
  (s : specialization) (this : address) (m : store) : outcome store :=
  let c := declaration s in
  _ ← instantiate c;
  if default_constructible c
  then match storage c with
       | None => ok m
       | Some V =>
           match default_initialize (unqualified V) with
           | Some d => ok (<[this := d]> m)
           | None => ill_formed "the storage cannot be default-initialized"
           end
       end
  else ill_formed "no matching function for call to the default constructor".


(** [X x(e);] where [e] is an expression of category [k] and type [U] whose
    value is [v].  A reference to [T] binds to [e] itself when [e] has type
    [T], and otherwise to a temporary that [e] converts to. *)
Definition construct_from_expression
  (s : specialization) (k : value_category) (U : cpp.type)
  (this : address) (v : value) (m : store) : outcome store :=
  let T := argument_T s in
  let bound :=
    if bool_decide (remove_const U = remove_const T) then v
    else convert U T v in
  _ ← instantiate (declaration s);
  match select s (expression k U) with
  | Some (AddressSpaceVariableImpl, const_T_reference) =>
      ok (AddressSpaceVariableImpl_from_value this bound m)
  | Some (AddressSpaceArrayImpl, const_T_reference) =>
      AddressSpaceArrayImpl_from_array T this bound m
  | Some (AddressSpaceObjectImpl, T_rvalue_reference) =>
      AddressSpaceObjectImpl_from_value T this bound m
  | _ => ill_formed "no matching constructor"
  end.

(** [X x(v);] for a value [v] of type [T]. *)
Definition construct_from_value
  (s : specialization) (this : address) (v : value) (m : store)
  : outcome store :=
  construct_from_expression s prvalue (argument_T s) this v m.

(** [X x(list);] for a [std::initializer_list<E>] that holds [list]. *)
Definition construct_from_initializer_list
  (s : specialization) (E : cpp.type)
  (this : address) (list : list value) (m : store) : outcome store :=
  _ ← instantiate (declaration s);
  match select s (initializer_list E) with
  | Some (AddressSpaceArrayImpl, initializer_list_of_elements) =>
      AddressSpaceArrayImpl_from_initializer_list (argument_T s) this list m
  | _ => ill_formed "no matching constructor"
  end.

(** [X x(w);] for the wrapper [w], of class [source], at address [v]. *)
Definition construct_from_wrapper
  (s source : specialization) (this v : address) (m : store)
  : outcome store :=
  _ ← instantiate (declaration s);
  match select s (wrapper source) with
  | Some (AddressSpaceFundamentalImpl, wrapper_reference _) =>
      AddressSpaceFundamentalImpl_from_wrapper
        (argument_T s) (argument_T source) (argument_AS source) this v m
  | Some (AddressSpaceArrayImpl, wrapper_reference _) =>
      AddressSpaceArrayImpl_from_wrapper
        (argument_T s) (argument_T source) (argument_AS source) this v m
  | _ => ill_formed "no matching constructor"
  end.

(** The wrapper at [this] used where a [T] is expected: it converts to an
    lvalue, whose value is read. *)
Definition convert_to_T
  (s : specialization) (this : address) (m : store) : outcome value :=
  r ← convert_to_opencl_type (declaration s) this;
  match read r m with
  | Some x => ok x
  | None => undefined_behaviour
  end.

End translation_unit.

(** ** The categories of the spec *)

Inductive category := Pointer | Object | Array | Scalar.

(** The category a wrapper class implements; the two classes that only
    serve as bases implement none. *)
Definition category_of (t : template_name) : option category :=
  match t with
  | AddressSpacePointerImpl => Some Pointer
  | AddressSpaceObjectImpl => Some Object
  | AddressSpaceArrayImpl => Some Array
  | AddressSpaceFundamentalImpl => Some Scalar
  | AddressSpaceBaseImpl | AddressSpaceVariableImpl => None
  end.

(** CategorySelector as the spec words it (section 4.2): "if T is a pointer
    type -> Pointer; else if T is a class/aggregate type -> Object; else if
    T is an array type -> Array; else -> Scalar". *)
Inductive CategorySelector_spec (T : cpp.type) : category -> Prop :=
| select_Pointer :
    std.is_pointer T = true -> CategorySelector_spec T Pointer
| select_Object :
    std.is_pointer T = false -> std.is_class T = true ->
    CategorySelector_spec T Object
| select_Array :
    std.is_pointer T = false -> std.is_class T = false ->
    std.is_array T = true -> CategorySelector_spec T Array
| select_Scalar :
    std.is_pointer T = false -> std.is_class T = false ->
    std.is_array T = false -> CategorySelector_spec T Scalar.

End trisycl.
End sycl.

Import cpp sycl sycl.trisycl.
Local Open Scope list_scope.

(** * Properties *)

(** ** Types and their shapes *)




(** The dispatch, case by case. *)
Lemma AddressSpaceImpl_cases (T : cpp.type) (AS : sycl.address_space) :
  AddressSpaceImpl T AS =
  Specialization
    (if std.is_pointer T then AddressSpacePointerImpl
     else if std.is_class T then AddressSpaceObjectImpl
     else if std.is_array T then AddressSpaceArrayImpl
     else AddressSpaceFundamentalImpl) T AS.
Proof.
  unfold AddressSpaceImpl, std.conditional.
  destruct (std.is_pointer T), (std.is_class T), (std.is_array T); reflexivity.
Qed.

(** ** C6: no qualifier outside device compilation *)

(** C6.  When [__SYCL_DEVICE_ONLY__] is not defined, [OpenCLType<T, AS>::type]
    is the unqualified [T] for every address space; so are the member
    [opencl_type] of the wrapper that [AddressSpaceImpl] selects, the
    declared type of what the wrapper stores, and the type its conversion
    function returns a reference to. *)
Theorem OpenCLType_without_device (T : cpp.type) (AS : sycl.address_space) :
  let c := declaration false (AddressSpaceImpl T AS) in
  OpenCLType false T AS = Storage None T
  /\ find_aliases c = Some (Aliases T (Storage None T) AS)
  /\ storage c = Some (Storage None T)
  /\ (fun f => snd (fst f)) <$> find_conversion_function c
     = Some (Storage None T).
Proof.
  rewrite AddressSpaceImpl_cases.
  destruct AS, (std.is_pointer T), (std.is_class T), (std.is_array T);
    repeat split; reflexivity.
Qed.

(** ** C7: the dispatch on the shape of [T] *)

(** C7.  [AddressSpaceImpl<T, AS>] names the wrapper of exactly one category,
    the one the spec's priority list gives (pointer, then class, then array,
    else scalar); the choice depends on [T] alone, the arguments are passed
    on unchanged, and a pointer type, whatever it points to (an array, a
    class), gets the pointer wrapper, never the array or the object one. *)
Theorem AddressSpaceImpl_selects_category
  (T : cpp.type) (AS : sycl.address_space) :
  (forall c, CategorySelector_spec T c
             <-> category_of (template (AddressSpaceImpl T AS)) = Some c)
  /\ is_Some (category_of (template (AddressSpaceImpl T AS)))
  /\ argument_T (AddressSpaceImpl T AS) = T
  /\ argument_AS (AddressSpaceImpl T AS) = AS
  /\ (forall AS', template (AddressSpaceImpl T AS')
                  = template (AddressSpaceImpl T AS))
  /\ (forall P, template (AddressSpaceImpl (t_pointer P) AS)
                = AddressSpacePointerImpl).
Proof.
  split; [| repeat split].
  - intros c. rewrite AddressSpaceImpl_cases. simpl. split.
    + intros [Hp | Hp Hc | Hp Hc Ha | Hp Hc Ha]; rewrite ?Hp, ?Hc, ?Ha;
        reflexivity.
    + destruct (std.is_pointer T) eqn:Hp; [| destruct (std.is_class T) eqn:Hc;
        [| destruct (std.is_array T) eqn:Ha]]; simpl; intros [= <-].
      * now apply select_Pointer.
      * now apply select_Object.
      * now apply select_Array.
      * now apply select_Scalar.
  - rewrite AddressSpaceImpl_cases. simpl.
    destruct (std.is_pointer T), (std.is_class T), (std.is_array T); simpl; eauto.
  - now rewrite AddressSpaceImpl_cases.
  - now rewrite AddressSpaceImpl_cases.
  - intros AS'. now rewrite !AddressSpaceImpl_cases.
Qed.

(** The spec's examples of shapes that must not mislead the dispatch. *)
Example pointer_to_array_is_pointer :
  AddressSpaceImpl (t_pointer (t_array t_int 3)) local_address_space
  = Specialization AddressSpacePointerImpl (t_pointer (t_array t_int 3))
      local_address_space.
Proof. reflexivity. Qed.

Example const_pointer_to_class_is_pointer :
  template (AddressSpaceImpl (t_const (t_pointer (t_class "S")))
              global_address_space)
  = AddressSpacePointerImpl.
Proof. reflexivity. Qed.

Example union_is_scalar :
  template (AddressSpaceImpl (t_union "U") private_address_space)
  = AddressSpaceFundamentalImpl.
Proof. reflexivity. Qed.

(** ** [std::copy] into an array *)

(** A copy that fits overwrites the elements from [d_first] on, in order,
    and touches nothing else. *)
Lemma copy_fits (source destination : list value) (d_first : nat) :
  (d_first + length source <= length destination)%nat ->
  std.copy source destination d_first
  = Some (take d_first destination ++ source
          ++ drop (d_first + length source) destination).
Proof.
  revert destination d_first.
  induction source as [| x rest IH]; intros destination d_first Hfit; simpl.
  - rewrite Nat.add_0_r, take_drop. reflexivity.
  - simpl in Hfit.
    destruct (decide (d_first < length destination)%nat) as [Hlt | Hge];
      [| lia].
    rewrite IH by (rewrite length_insert; lia).
    rewrite (take_S_r _ _ x) by (now apply list_lookup_insert_eq).
    rewrite take_insert_ge, drop_insert_lt by lia.
    rewrite <- app_assoc. simpl. repeat f_equal. lia.
Qed.

(** A copy that does not fit assigns past the end of the array. *)
Lemma copy_overflows (source destination : list value) (d_first : nat) :
  (d_first <= length destination)%nat ->
  (length destination < d_first + length source)%nat ->
  std.copy source destination d_first = None.
Proof.
  revert destination d_first.
  induction source as [| x rest IH]; intros destination d_first Hle Hlt;
    simpl in *.
  - lia.
  - destruct (decide (d_first < length destination)%nat); [| reflexivity].
    apply IH; rewrite length_insert; lia.
Qed.

(** ** Array wrappers: what the element-wise copies store *)

Lemma default_initialize_array
  (classes : string -> class_description) (E : cpp.type) (N : nat)
  (initial : list value) :
  default_initialize classes (t_array E N) = Some (array initial) ->
  length initial = N.
Proof.
  simpl. destruct (default_initialize classes E); simpl; intros [= <-].
  apply length_replicate.
Qed.

Lemma from_elements_fits
  (classes : string -> class_description) (T : cpp.type) (this : address)
  (source initial : list value) (m : store) :
  default_initialize classes T = Some (array initial) ->
  is_copy_assignable classes (std.remove_extent_t T) = true ->
  (length source <= length initial)%nat ->
  AddressSpaceArrayImpl_from_elements classes T this source m
  = ok (<[this := array (source ++ drop (length source) initial)]> m).
Proof.
  intros Hinit Hassign Hfit. unfold AddressSpaceArrayImpl_from_elements.
  rewrite Hinit, Hassign, copy_fits by (simpl; lia). reflexivity.
Qed.

Lemma from_elements_overflows
  (classes : string -> class_description) (T : cpp.type) (this : address)
  (source initial : list value) (m : store) :
  default_initialize classes T = Some (array initial) ->
  is_copy_assignable classes (std.remove_extent_t T) = true ->
  (length initial < length source)%nat ->
  AddressSpaceArrayImpl_from_elements classes T this source m = undefined_behaviour.
Proof.
  intros Hinit Hassign Hover. unfold AddressSpaceArrayImpl_from_elements.
  rewrite Hinit, Hassign, copy_overflows by (simpl; lia). reflexivity.
Qed.



(** Overload resolution on the array wrapper.  The list constructor takes a
    [std::initializer_list] of the element type, of any length. *)
Lemma select_initializer_list
  (dev : bool) (E : cpp.type) (N : nat) (AS : sycl.address_space) :
  select dev (Specialization AddressSpaceArrayImpl (t_array E N) AS)
    (initializer_list E)
  = Some (AddressSpaceArrayImpl, initializer_list_of_elements).
Proof.
  unfold select. simpl. rewrite bool_decide_eq_true_2 by reflexivity.
  reflexivity.
Qed.

(** The array constructor takes an array of the wrapper's own type, const
    apart, and nothing else. *)
Lemma select_array_expression
  (dev : bool) (E : cpp.type) (N : nat) (AS : sycl.address_space)
  (k : value_category) (U : cpp.type) :
  select dev (Specialization AddressSpaceArrayImpl (t_array E N) AS)
    (expression k U)
  = if bool_decide (remove_const U = remove_const (t_array E N))
    then Some (AddressSpaceArrayImpl, const_T_reference)
    else None.
Proof.
  unfold select. simpl. case_bool_decide; reflexivity.
Qed.

(** ** Default construction *)

Lemma unqualified_OpenCLType
  (dev : bool) (T : cpp.type) (AS : sycl.address_space) :
  unqualified (OpenCLType dev T AS) = T.
Proof. destruct AS; reflexivity. Qed.

(** What can be default-initialised has a complete object type. *)
Lemma default_initialize_complete
  (classes : string -> class_description) (T : cpp.type) (d : value) :
  default_initialize classes T = Some d -> is_complete_object_type T = true.
Proof.
  revert d. induction T; simpl; intros d; try discriminate; try reflexivity.
  - destruct (default_initialize classes T); [| discriminate].
    intros _. now apply (IHT v).
  - destruct (is_const_default_constructible classes T); [| discriminate].
    apply IHT.
Qed.

Lemma is_pointer_complete (T : cpp.type) :
  std.is_pointer T = true -> is_complete_object_type T = true.
Proof.
  unfold std.is_pointer. induction T; simpl; try discriminate; auto.
Qed.

(** Instantiation of each class template of the header for a complete
    object type: the static assertion of the pointer wrapper and the base
    class of the object wrapper are what can fail. *)
Lemma instantiate_wrapper
  (dev : bool) (t : template_name) (T : cpp.type) (AS : sycl.address_space) :
  is_complete_object_type T = true ->
  instantiate (declaration dev (Specialization t T AS))
  = match t with
    | AddressSpacePointerImpl =>
        if std.is_pointer T then ok ()
        else ill_formed "T must be a pointer type"
    | AddressSpaceObjectImpl =>
        if std.is_class T then ok ()
        else ill_formed "the base type is not a class"
    | _ => ok ()
    end.
Proof.
  intros Hcomplete.
  destruct t; cbn - [OpenCLType];
    rewrite ?unqualified_OpenCLType, ?Hcomplete;
    try destruct (std.is_pointer T); try destruct (std.is_class T);
    reflexivity.
Qed.

(** The wrapper that the dispatch selects for a complete object type is
    instantiated without error: the pointer wrapper is selected for pointer
    types only, and the object wrapper for class types only. *)
Lemma instantiate_selected
  (dev : bool) (T : cpp.type) (AS : sycl.address_space) :
  is_complete_object_type T = true ->
  instantiate (declaration dev (AddressSpaceImpl T AS)) = ok ().
Proof.
  intros Hcomplete. rewrite AddressSpaceImpl_cases, instantiate_wrapper
    by assumption.
  destruct (std.is_pointer T), (std.is_class T), (std.is_array T); reflexivity.
Qed.

(** Each wrapper class has a default constructor that is not deleted as
    soon as its storage can be default-initialised. *)
Lemma default_constructible_wrapper
  (dev : bool) (classes : string -> class_description)
  (t : template_name) (T : cpp.type) (AS : sycl.address_space) (d : value) :
  default_initialize classes T = Some d ->
  default_constructible classes (declaration dev (Specialization t T AS))
  = true.
Proof.
  intros Hd.
  assert (Hs : bool_decide
                 (is_Some (default_initialize classes
                             (unqualified (OpenCLType dev T AS)))) = true).
  { rewrite unqualified_OpenCLType, Hd.
    apply bool_decide_eq_true_2. eexists; reflexivity. }
  destruct t; cbn - [default_initialize OpenCLType];
    rewrite ?Hs; reflexivity.
Qed.

(** For a type that can be default-initialised, the wrapper that the
    dispatch selects has a usable default constructor, which leaves in
    the storage what default-initialisation of a [T] leaves. *)
Lemma default_construct_selected
  (dev : bool) (classes : string -> class_description)
  (T : cpp.type) (AS : sycl.address_space) (d : value)
  (this : address) (m : store) :
  default_initialize classes T = Some d ->
  default_constructible classes (declaration dev (AddressSpaceImpl T AS)) = true
  /\ default_construct dev classes (AddressSpaceImpl T AS) this m
     = ok (<[this := d]> m).
Proof.
  intros Hd.
  pose proof (default_initialize_complete _ _ _ Hd) as Hcomplete.
  unfold default_construct.
  rewrite (instantiate_selected dev T AS Hcomplete).
  rewrite AddressSpaceImpl_cases.
  rewrite (default_constructible_wrapper dev classes _ T AS d Hd).
  split; [reflexivity |].
  destruct (std.is_pointer T), (std.is_class T), (std.is_array T);
    cbn - [default_initialize OpenCLType];
    now rewrite unqualified_OpenCLType, Hd.
Qed.

(** ** The constructors of the array wrapper that the dispatch selects *)

Lemma instantiate_array_wrapper
  (dev : bool) (E : cpp.type) (N : nat) (AS : sycl.address_space) :
  instantiate
    (declaration dev (Specialization AddressSpaceArrayImpl (t_array E N) AS))
  = if is_complete_object_type E then ok ()
    else ill_formed "the member variable has an incomplete type".
Proof.
  cbn - [OpenCLType]. rewrite unqualified_OpenCLType. simpl.
  destruct (is_complete_object_type E); reflexivity.
Qed.

(** The list constructor: once the class is instantiated, the constructor
    that takes a [std::initializer_list] of the element type is the one
    selected, for a list of any length. *)
Lemma construct_from_initializer_list_array
  (dev : bool) (classes : string -> class_description)
  (E : cpp.type) (N : nat) (AS : sycl.address_space)
  (this : address) (list : list value) (m : store) :
  construct_from_initializer_list dev classes
    (AddressSpaceImpl (t_array E N) AS) E this list m
  = if is_complete_object_type E
    then AddressSpaceArrayImpl_from_elements classes (t_array E N) this list m
    else ill_formed "the member variable has an incomplete type".
Proof.
  unfold construct_from_initializer_list.
  replace (AddressSpaceImpl (t_array E N) AS)
    with (Specialization AddressSpaceArrayImpl (t_array E N) AS)
    by reflexivity.
  rewrite select_initializer_list.
  cbn - [OpenCLType]. rewrite unqualified_OpenCLType. simpl.
  destruct (is_complete_object_type E); reflexivity.
Qed.

(** The array constructor: it is selected for an array of the wrapper's own
    type, const apart, and for nothing else. *)
Lemma construct_from_expression_array
  (dev : bool) (classes : string -> class_description)
  (convert : cpp.type -> cpp.type -> value -> value)
  (E : cpp.type) (N : nat) (AS : sycl.address_space)
  (k : value_category) (U : cpp.type)
  (this : address) (v : value) (m : store) :
  construct_from_expression dev classes convert
    (AddressSpaceImpl (t_array E N) AS) k U this v m
  = if is_complete_object_type E
    then if bool_decide (remove_const U = remove_const (t_array E N))
         then AddressSpaceArrayImpl_from_array classes (t_array E N) this v m
         else ill_formed "no matching constructor"
    else ill_formed "the member variable has an incomplete type".
Proof.
  unfold construct_from_expression.
  replace (AddressSpaceImpl (t_array E N) AS)
    with (Specialization AddressSpaceArrayImpl (t_array E N) AS)
    by reflexivity.
  rewrite select_array_expression.
  cbn - [OpenCLType remove_const]. rewrite unqualified_OpenCLType.
  cbn - [remove_const].
  destruct (is_complete_object_type E); [| reflexivity].
  cbn - [remove_const]. case_bool_decide; reflexivity.
Qed.

(** ** C9: an initializer list shorter than the array *)

(** C9, as the code has it.  For an array wrapper over [E[N]] whose elements
    can be default-initialised and assigned (so [E] is neither an array nor
    const), built from an initializer list of [k <= N] elements: the wrapper
    is built, no check looks at [k]; its first [k] elements are the elements
    of the list, in order, and the other [N - k] are what
    default-initialisation of the array left there, which is also what the
    default constructor of the wrapper leaves. *)
Theorem initializer_list_fills_a_prefix
  (dev : bool) (classes : string -> class_description)
  (E : cpp.type) (N : nat) (AS : sycl.address_space)
  (this : address) (list initial : list value) (m : store) :
  default_initialize classes (t_array E N) = Some (array initial) ->
  is_copy_assignable classes E = true ->
  (length list <= N)%nat ->
  let s := AddressSpaceImpl (t_array E N) AS in
  exists stored,
    construct_from_initializer_list dev classes s E this list m
    = ok (<[this := array stored]> m)
    /\ length stored = N
    /\ take (length list) stored = list
    /\ drop (length list) stored = drop (length list) initial
    /\ default_construct dev classes s this m = ok (<[this := array initial]> m).
Proof.
  intros Hinit Hassign Hk s.
  pose proof (default_initialize_array _ _ _ _ Hinit) as Hlen.
  pose proof (default_initialize_complete _ _ _ Hinit) as Hcomplete.
  exists (list ++ drop (length list) initial).
  repeat split.
  - subst s. rewrite construct_from_initializer_list_array.
    simpl in Hcomplete. rewrite Hcomplete.
    apply from_elements_fits; [exact Hinit | exact Hassign | lia].
  - rewrite length_app, length_drop. lia.
  - apply take_app_length.
  - apply drop_app_length.
  - apply default_construct_selected, Hinit.
Qed.

Lemma initializer_list_fills_a_prefix_witness :
  exists stored,
    construct_from_initializer_list false
      (fun _ => without_default_constructor)
      (AddressSpaceImpl (t_array t_int 3) constant_address_space) t_int
      1%positive [integer 1; integer 2] ∅
    = ok (<[1%positive := array stored]> ∅)
    /\ length stored = 3%nat
    /\ take 2 stored = [integer 1; integer 2]
    /\ drop 2 stored = [indeterminate]
    /\ default_construct false (fun _ => without_default_constructor)
         (AddressSpaceImpl (t_array t_int 3) constant_address_space)
         1%positive ∅
       = ok (<[1%positive := array [indeterminate; indeterminate; indeterminate]]> ∅).
Proof.
  apply (initializer_list_fills_a_prefix false
           (fun _ => without_default_constructor) t_int 3
           constant_address_space 1%positive [integer 1; integer 2]
           [indeterminate; indeterminate; indeterminate] ∅).
  - reflexivity.
  - reflexivity.
  - simpl. lia.
Defined.

(** C9 as the spec states it, for every array wrapper, fails where the
    elements are arrays themselves: the wrapper of [int[2][3]] can be
    default-initialised, and a list of one row for its two is no longer than
    the array, but the list constructor assigns a row to a row and is
    rejected when the program is compiled. *)
Lemma initializer_list_of_rows_is_rejected :
  let classes := fun _ : string => without_default_constructor in
  let row := t_array t_int 3 in
  let s := AddressSpaceImpl (t_array row 2) global_address_space in
  let list := [array [integer 1; integer 2; integer 3]] in
  forallb (fun x => has_type x row) list = true
  /\ (length list <= 2)%nat
  /\ is_Some (default_initialize classes (t_array row 2))
  /\ default_construct false classes s 1%positive ∅
     = ok (<[1%positive :=
               array [array [indeterminate; indeterminate; indeterminate];
                      array [indeterminate; indeterminate; indeterminate]]]> ∅)
  /\ construct_from_initializer_list false classes s row 1%positive list ∅
     = ill_formed "the elements of variable cannot be assigned".
Proof.
  repeat split; try reflexivity.
  - simpl. lia.
  - eexists. reflexivity.
Qed.

(** ** C3: default construction *)



(** A class that has a default constructor, in the object wrapper. *)
Example default_construction_of_an_object :
  let classes := fun name : string =>
                   if bool_decide (name = "S")
                   then with_default_constructor "S" [integer 5]
                   else without_default_constructor in
  default_construct false classes
    (AddressSpaceImpl (t_class "S") global_address_space) 1%positive ∅
  = ok (<[1%positive := object "S" [integer 5]]> ∅).
Proof. reflexivity. Qed.

(** ** Conversion back to [T] *)

(** The conversion function of every wrapper with a member [variable]
    returns a reference to that member, typed [opencl_type]. *)
Lemma operator_returns_variable
  (dev : bool) (t : template_name) (T : cpp.type) (AS : sycl.address_space)
  (this : address) :
  t <> AddressSpaceBaseImpl -> t <> AddressSpaceObjectImpl ->
  operator_opencl_type_reference (declaration dev (Specialization t T AS)) this
  = ok (Reference (OpenCLType dev T AS) this).
Proof.
  intros Hbase Hobject. unfold operator_opencl_type_reference.
  destruct t; try contradiction; cbn - [OpenCLType];
    now rewrite bool_decide_eq_true_2.
Qed.




(** The constructors with a parameter that each wrapper offers, with the
    class that declares them: the pointer wrapper has those of the scalar
    wrapper, which has its own and the one of [AddressSpaceVariableImpl]. *)
Lemma converting_constructors_of
  (dev : bool) (t : template_name) (T : cpp.type) (AS : sycl.address_space) :
  converting_constructors (declaration dev (Specialization t T AS))
  = match t with
    | AddressSpaceBaseImpl => []
    | AddressSpaceVariableImpl =>
        [(AddressSpaceVariableImpl, const_T_reference)]
    | AddressSpaceFundamentalImpl | AddressSpacePointerImpl =>
        [(AddressSpaceFundamentalImpl,
          wrapper_reference AddressSpaceFundamentalImpl);
         (AddressSpaceVariableImpl, const_T_reference)]
    | AddressSpaceArrayImpl =>
        [(AddressSpaceArrayImpl, const_T_reference);
         (AddressSpaceArrayImpl, initializer_list_of_elements);
         (AddressSpaceArrayImpl, wrapper_reference AddressSpaceArrayImpl)]
    | AddressSpaceObjectImpl =>
        [(AddressSpaceObjectImpl, T_rvalue_reference)]
    end.
Proof. destruct t; reflexivity. Qed.

(** No argument is accepted by two constructors of a wrapper: [select] has
    no ranking to do. *)
Lemma at_most_one_viable
  (dev : bool) (t : template_name) (T : cpp.type) (AS : sycl.address_space)
  (a : argument) :
  (length
     (filter (fun c => viable dev T (snd c) a = true)
        (converting_constructors (declaration dev (Specialization t T AS))))
   <= 1)%nat.
Proof.
  rewrite converting_constructors_of.
  destruct t, a; try destruct k;
    rewrite ?filter_cons, ?filter_nil; simpl;
    repeat case_decide; simpl; lia || congruence.
Qed.





(** Conversion of the selected wrapper to [T] reads its storage: through
    the conversion function for the wrappers with a member [variable],
    through the derived-to-base conversion for the object wrapper. *)
Lemma convert_to_T_reads_storage
  (dev : bool) (T : cpp.type) (AS : sycl.address_space)
  (this : address) (m : store) :
  convert_to_T dev (AddressSpaceImpl T AS) this m
  = match m !! this with
    | Some x => ok x
    | None => undefined_behaviour
    end.
Proof.
  rewrite AddressSpaceImpl_cases. unfold convert_to_T, convert_to_opencl_type.
  destruct (std.is_pointer T); [| destruct (std.is_class T);
    [| destruct (std.is_array T)]];
    try (cbn - [operator_opencl_type_reference OpenCLType declaration];
         rewrite operator_returns_variable by discriminate);
    reflexivity.
Qed.

(** ** C1: a value put in a wrapper is the value read back *)




(** Scenario 1 of the spec, and the other categories. *)
Example round_trip_of_42 :
  let s := AddressSpaceImpl t_int global_address_space in
  construct_from_value false (fun _ => without_default_constructor)
    (fun _ _ x => x) s 1%positive (integer 42) ∅
  ≫= convert_to_T false s 1%positive
  = ok (integer 42).
Proof. reflexivity. Qed.

Example round_trip_of_an_object :
  let s := AddressSpaceImpl (t_class "S") constant_address_space in
  construct_from_value true (fun _ => without_default_constructor)
    (fun _ _ x => x) s 1%positive (object "S" [integer 1; floating 2]) ∅
  ≫= convert_to_T true s 1%positive
  = ok (object "S" [integer 1; floating 2]).
Proof. reflexivity. Qed.

(** ** C10: the conversion returns the storage itself *)

(** C10.  For the scalar, pointer and array wrappers (every [T] that is not
    a class), the conversion function returns a reference, of type
    [opencl_type], that designates the storage of the wrapper it is called
    on.  It takes no copy: it does not depend on the store and leaves it
    alone, and reading through it is reading the storage.  After a write
    through the reference, converting the wrapper again yields what was
    written, and every other object, the storage of every other wrapper
    included, is as it was. *)
Theorem conversion_aliases_the_storage
  (dev : bool) (T : cpp.type) (AS : sycl.address_space) (this : address) :
  std.is_class T = false ->
  let s := AddressSpaceImpl T AS in
  let r := Reference (OpenCLType dev T AS) this in
  operator_opencl_type_reference (declaration dev s) this = ok r
  /\ convert_to_opencl_type (declaration dev s) this = ok r
  /\ address_of r = (pointer (Some this), OpenCLType dev T AS)
  /\ forall (m : store) (x : value),
       read r m = m !! this
       /\ read r (write r x m) = Some x
       /\ convert_to_T dev s this (write r x m) = ok x
       /\ (forall a, a <> this -> write r x m !! a = m !! a)
       /\ (forall T' AS' a,
              a <> this ->
              convert_to_T dev (AddressSpaceImpl T' AS') a (write r x m)
              = convert_to_T dev (AddressSpaceImpl T' AS') a m).
Proof.
  intros Hc s r.
  assert (Hop : operator_opencl_type_reference (declaration dev s) this = ok r).
  { subst s r. rewrite AddressSpaceImpl_cases, Hc.
    apply operator_returns_variable;
      destruct (std.is_pointer T), (std.is_array T); discriminate. }
  split; [exact Hop |]. split.
  - unfold convert_to_opencl_type. subst s.
    replace (opencl_type_base (declaration dev (AddressSpaceImpl T AS)))
      with (@None storage_type); [exact Hop |].
    rewrite AddressSpaceImpl_cases, Hc.
    destruct (std.is_pointer T), (std.is_array T); reflexivity.
  - split; [reflexivity |].
    intros m x. unfold read, write, store, address in *. subst r. simpl.
    repeat split.
    + now rewrite lookup_insert_eq.
    + subst s. rewrite convert_to_T_reads_storage.
      unfold store, address in *. now rewrite lookup_insert_eq.
    + intros a Ha. now rewrite lookup_insert_ne.
    + intros T' AS' a Ha. rewrite !convert_to_T_reads_storage.
      unfold store, address in *. now rewrite lookup_insert_ne.
Qed.

Lemma conversion_aliases_the_storage_witness :
  let s := AddressSpaceImpl (t_pointer t_float) private_address_space in
  let r := Reference (Storage (Some __private) (t_pointer t_float)) 1%positive in
  operator_opencl_type_reference (declaration true s) 1%positive = ok r
  /\ convert_to_opencl_type (declaration true s) 1%positive = ok r
  /\ address_of r
     = (pointer (Some 1%positive), Storage (Some __private) (t_pointer t_float))
  /\ forall (m : store) (x : value),
       read r m = m !! 1%positive
       /\ read r (write r x m) = Some x
       /\ convert_to_T true s 1%positive (write r x m) = ok x
       /\ (forall a, a <> 1%positive -> write r x m !! a = m !! a)
       /\ (forall T' AS' a,
              a <> 1%positive ->
              convert_to_T true (AddressSpaceImpl T' AS') a (write r x m)
              = convert_to_T true (AddressSpaceImpl T' AS') a m).
Proof.
  apply (conversion_aliases_the_storage true (t_pointer t_float)
           private_address_space 1%positive).
  reflexivity.
Defined.

(** An element assigned through the reference that the conversion of an
    array wrapper returns is the element a later conversion reads. *)
Example array_element_written_through_the_reference :
  let s := AddressSpaceImpl (t_array t_int 3) local_address_space in
  let v := array [integer 1; integer 2; integer 3] in
  (r ← operator_opencl_type_reference (declaration true s) 1%positive;
   m ← construct_from_value true (fun _ => without_default_constructor)
         (fun _ _ x => x) s 1%positive v ∅;
   match write_element r 1 (integer 5) m with
   | Some m' => convert_to_T true s 1%positive m'
   | None => undefined_behaviour
   end)
  = ok (array [integer 1; integer 5; integer 3]).
Proof. reflexivity. Qed.

(** ** C8: the pointer wrapper *)






(** Scenario 2 of the spec. *)
Example pointer_wrapper_of_a_pointer :
  instantiate
    (declaration true
       (Specialization AddressSpacePointerImpl (t_pointer t_float)
          private_address_space))
  = ok ().
Proof. reflexivity. Qed.

Example pointer_wrapper_of_a_float :
  construct_from_value true (fun _ => without_default_constructor)
    (fun _ _ x => x)
    (Specialization AddressSpacePointerImpl t_float private_address_space)
    1%positive (floating 1) ∅
  = ill_formed "T must be a pointer type".
Proof. reflexivity. Qed.

(** ** C2: the conversion function of the object wrapper *)

(** C2, on the code.  The conversion function of the object wrapper is
    declared to return [opencl_type &], and its body is [return this;]:
    [this] is a pointer and a prvalue, to which the reference does not
    bind.  For every [T] and address space, on both targets, an
    instantiation of the function is ill-formed: it returns nothing, and
    not the base class subobject that the claim describes.  (A wrapper of
    this category still converts to [T], through the derived-to-base
    conversion, which never calls the function.) *)
Theorem object_conversion_function_returns_this
  (dev : bool) (T : cpp.type) (AS : sycl.address_space) (this : address) :
  let c := declaration dev (Specialization AddressSpaceObjectImpl T AS) in
  (fun f => snd f) <$> find_conversion_function c = Some return_this
  /\ operator_opencl_type_reference c this
     = ill_formed
         "invalid initialization of a non-const reference from an rvalue"
  /\ convert_to_opencl_type c this = ok (Reference (OpenCLType dev T AS) this).
Proof. repeat split. Qed.

(** ** C4: a wrapper built from a wrapper of another type *)

Lemma select_wrapper_scalar
  (dev : bool) (T1 T2 : cpp.type) (AS1 AS2 : sycl.address_space) :
  std.is_class T1 = false -> std.is_array T1 = false ->
  std.is_class T2 = false -> std.is_array T2 = false ->
  select dev (AddressSpaceImpl T2 AS2) (wrapper (AddressSpaceImpl T1 AS1))
  = Some (AddressSpaceFundamentalImpl,
          wrapper_reference AddressSpaceFundamentalImpl).
Proof.
  intros Hc1 Ha1 Hc2 Ha2. rewrite !AddressSpaceImpl_cases.
  rewrite Hc1, Ha1, Hc2, Ha2. unfold select.
  rewrite converting_constructors_of.
  destruct (std.is_pointer T1), (std.is_pointer T2); reflexivity.
Qed.


(** Scenario 4 of the spec: a [double] in the constant address space built
    from an [int] in the generic address space that holds 7 stores 7.0. *)
Example double_from_int_7 :
  let A := AddressSpaceImpl t_int generic_address_space in
  let B := AddressSpaceImpl t_double constant_address_space in
  (construct_from_value false (fun _ => without_default_constructor)
     convert_value A 1%positive (integer 7) ∅
   ≫= construct_from_wrapper false (fun _ => without_default_constructor)
        convert_value B A 2%positive 1%positive)
  ≫= convert_to_T false B 2%positive
  = ok (floating 7).
Proof. reflexivity. Qed.

(** An array is no initialiser for an arithmetic element: it decays to a
    pointer, which converts to no arithmetic type but [bool], and to [bool]
    not inside braces. *)
Lemma array_initializes_no_arithmetic (L U : cpp.type) :
  std.is_array U = true -> is_arithmetic L = true ->
  list_initializes L U = false.
Proof.
  unfold std.is_array, list_initializes, standard_conversion, narrowing,
    decay, is_arithmetic.
  destruct (remove_cv U); try discriminate; intros _;
    destruct (remove_cv L); try discriminate; reflexivity.
Qed.

(** The array wrapper does not do what C4 says: for a source wrapper over
    an array of arithmetic elements, [SomeType { v }] asks for a conversion
    of the wrapper to the first element of the array, and there is none,
    whatever the target, the address spaces and the lengths. *)
Lemma array_wrapper_from_array_wrapper
  (dev : bool) (classes : string -> class_description)
  (convert : cpp.type -> cpp.type -> value -> value)
  (T SomeType : cpp.type) (SomeAS : sycl.address_space)
  (this v : address) (m : store) :
  std.is_array SomeType = true ->
  is_arithmetic (first_scalar SomeType) = true ->
  AddressSpaceArrayImpl_from_wrapper dev classes convert T SomeType SomeAS this v m
  = ill_formed "cannot convert the initializer to the element type".
Proof.
  intros Ha Hl. unfold AddressSpaceArrayImpl_from_wrapper.
  rewrite operator_returns_variable by discriminate.
  cbn - [OpenCLType braced_initialization].
  rewrite unqualified_OpenCLType. unfold braced_initialization.
  now rewrite (array_initializes_no_arithmetic _ _ Ha Hl).
Qed.

(** C4, on the code, at the failing input.  [A] is the wrapper of [int[3]]
    in the generic address space and holds [{7, 8, 9}], which is what it
    converts to; building the wrapper [B] of [double[3]] in the constant
    address space from [A] is ill-formed, where the claim has [B] store
    [{7.0, 8.0, 9.0}]. *)
Theorem array_wrapper_from_int_array_wrapper :
  let A := AddressSpaceImpl (t_array t_int 3) generic_address_space in
  let B := AddressSpaceImpl (t_array t_double 3) constant_address_space in
  let m : store :=
    <[1%positive := array [integer 7; integer 8; integer 9]]> ∅ in
  convert_to_T false A 1%positive m
  = ok (array [integer 7; integer 8; integer 9])
  /\ construct_from_wrapper false (fun _ => without_default_constructor)
       convert_value B A 2%positive 1%positive m
     = ill_formed "cannot convert the initializer to the element type".
Proof. split; reflexivity. Qed.


Lemma array_wrapper_from_array_wrapper_witness :
  AddressSpaceArrayImpl_from_wrapper false
    (fun _ => without_default_constructor) convert_value
    (t_array t_float 4) (t_array t_float 4) global_address_space
    2%positive 1%positive ∅
  = ill_formed "cannot convert the initializer to the element type".
Proof.
  apply (array_wrapper_from_array_wrapper false
           (fun _ => without_default_constructor) convert_value
           (t_array t_float 4) (t_array t_float 4) global_address_space
           2%positive 1%positive ∅);
    reflexivity.
Defined.

(** ** C5: where the length of the source is checked *)





(** ** An initializer list longer than the array *)

(** The list constructor of an array wrapper over [E[N]], for elements that
    can be default-initialised and assigned, compiles for a list of more
    than [N] elements, and its copy then assigns past the end of
    [variable]: undefined behaviour. *)
Theorem initializer_list_longer_than_the_array
  (dev : bool) (classes : string -> class_description)
  (E : cpp.type) (N : nat) (AS : sycl.address_space)
  (this : address) (list initial : list value) (m : store) :
  default_initialize classes (t_array E N) = Some (array initial) ->
  is_copy_assignable classes E = true ->
  (N < length list)%nat ->
  construct_from_initializer_list dev classes
    (AddressSpaceImpl (t_array E N) AS) E this list m
  = undefined_behaviour.
Proof.
  intros Hinit Hassign Hk.
  pose proof (default_initialize_array _ _ _ _ Hinit) as Hlen.
  pose proof (default_initialize_complete _ _ _ Hinit) as Hcomplete.
  rewrite construct_from_initializer_list_array.
  simpl in Hcomplete. rewrite Hcomplete.
  apply (from_elements_overflows classes _ this list initial);
    [exact Hinit | exact Hassign | lia].
Qed.

Lemma initializer_list_longer_than_the_array_witness :
  construct_from_initializer_list true (fun _ => without_default_constructor)
    (AddressSpaceImpl (t_array t_char 1) private_address_space) t_char
    1%positive [integer 104; integer 105] ∅
  = undefined_behaviour.
Proof.
  apply (initializer_list_longer_than_the_array true
           (fun _ => without_default_constructor)
           t_char 1 private_address_space 1%positive
           [integer 104; integer 105] [indeterminate] ∅).
  - reflexivity.
  - reflexivity.
  - simpl. lia.
Defined.

(** * Further properties of the header *)

(** ** The storage type and the three members of every wrapper *)

(** Two storage types are the same exactly when they qualify the same type
    and, on a device target, for the same address space: there each address
    space has a qualifier of its own, elsewhere the address space leaves no
    trace in the type.  Every class of the header has the members [type],
    [opencl_type] and [address_space] that [AddressSpaceBaseImpl] declares,
    with the arguments of the class. *)
Theorem OpenCLType_tells_the_address_space_on_device_only
  (dev : bool) (T1 T2 : cpp.type) (AS1 AS2 : sycl.address_space)
  (t : template_name) :
  (OpenCLType dev T1 AS1 = OpenCLType dev T2 AS2
   <-> T1 = T2 /\ (dev = true -> AS1 = AS2))
  /\ find_aliases (declaration dev (Specialization t T1 AS1))
     = Some (Aliases T1 (OpenCLType dev T1 AS1) AS1).
Proof.
  split; [| destruct t; reflexivity].
  split.
  - destruct dev, AS1, AS2; simpl; intros [= ->]; split; auto; discriminate.
  - intros [-> Has]. destruct dev; [now rewrite Has |].
    destruct AS1, AS2; reflexivity.
Qed.

(** ** The dispatch and the static assertion *)

(** The pointer wrapper is selected for pointer types and for no other type,
    so that instantiating the class that [AddressSpaceImpl<T, AS>] names
    never fails the static assertion, whatever [T] is: the assertion can
    only fail where the pointer wrapper is named directly.  For a complete
    object type that is not a class, the class that is named is
    instantiated without error. *)
Theorem dispatch_never_fails_the_static_assertion
  (dev : bool) (T : cpp.type) (AS : sycl.address_space) :
  (template (AddressSpaceImpl T AS) = AddressSpacePointerImpl
   <-> std.is_pointer T = true)
  /\ static_assertion (declaration dev (AddressSpaceImpl T AS))
     = (if std.is_pointer T
        then Some (true, "T must be a pointer type")
        else None)
  /\ instantiate (declaration dev (AddressSpaceImpl T AS))
     <> ill_formed "T must be a pointer type"
  /\ (is_complete_object_type T = true -> std.is_class T = false ->
      instantiate (declaration dev (AddressSpaceImpl T AS)) = ok ()).
Proof.
  split; [| split; [| split]].
  - rewrite AddressSpaceImpl_cases. simpl.
    destruct (std.is_pointer T), (std.is_class T), (std.is_array T);
      split; intros; congruence.
  - rewrite AddressSpaceImpl_cases.
    destruct (std.is_pointer T) eqn:Hp; [simpl; now rewrite Hp |].
    destruct (std.is_class T), (std.is_array T); reflexivity.
  - destruct (is_complete_object_type T) eqn:Hcomplete.
    + now rewrite instantiate_selected.
    + rewrite AddressSpaceImpl_cases.
      destruct (std.is_pointer T) eqn:Hp;
        [apply is_pointer_complete in Hp; congruence |].
      destruct (std.is_class T) eqn:Hc, (std.is_array T);
        cbn - [OpenCLType]; rewrite ?unqualified_OpenCLType, ?Hcomplete, ?Hc;
        discriminate.
  - intros Hcomplete _. now apply instantiate_selected.
Qed.

(** ** Construction from an expression *)





(** ** Construction from a wrapper of another type: what is rejected *)

(** The only standard conversions from an arithmetic type, or from a pointer
    to an arithmetic type, are the ones [standard_conversion] knows: where
    it finds none from [T1] to a scalar type [T2], building a wrapper over
    [T2] from a wrapper over [T1] is rejected when the program is compiled,
    for the assignment [super::variable = SomeType(v)] has no conversion to
    use. *)
Theorem scalar_wrapper_from_unrelated_wrapper
  (dev : bool) (classes : string -> class_description)
  (convert : cpp.type -> cpp.type -> value -> value)
  (T1 T2 : cpp.type) (AS1 AS2 : sycl.address_space)
  (this v : address) (m : store) :
  is_arithmetic T1 = true
  \/ (exists A, remove_cv T1 = t_pointer A /\ is_arithmetic A = true) ->
  is_scalar T2 = true ->
  is_const T2 = false ->
  standard_conversion T1 T2 = false ->
  construct_from_wrapper dev classes convert
    (AddressSpaceImpl T2 AS2) (AddressSpaceImpl T1 AS1) this v m
  = ill_formed "cannot convert SomeType to T in assignment".
Proof.
  intros H1 H2 Hk Hconv.
  assert (Hs1 : std.is_class T1 = false /\ std.is_array T1 = false).
  { unfold std.is_class, std.is_array.
    destruct H1 as [H1 | (A & -> & _)]; [| auto].
    unfold is_arithmetic in H1. destruct (remove_cv T1); auto; discriminate. }
  assert (Hs2 : std.is_class T2 = false /\ std.is_array T2 = false).
  { unfold std.is_class, std.is_array, is_scalar in *.
    destruct (remove_cv T2); auto; discriminate. }
  assert (Hd : default_initialize classes T2 = Some indeterminate).
  { unfold is_scalar in H2. destruct T2; try discriminate; reflexivity. }
  destruct Hs1 as [Hc1 Ha1]. destruct Hs2 as [Hc2 Ha2].
  unfold construct_from_wrapper.
  rewrite instantiate_selected
    by (eapply default_initialize_complete, Hd).
  rewrite select_wrapper_scalar by assumption.
  assert (HT : forall T AS, argument_T (AddressSpaceImpl T AS) = T
                            /\ argument_AS (AddressSpaceImpl T AS) = AS)
    by (intros; now rewrite AddressSpaceImpl_cases).
  destruct (HT T1 AS1) as [-> ->]. destruct (HT T2 AS2) as [-> _].
  cbn - [AddressSpaceImpl declaration operator_opencl_type_reference].
  unfold AddressSpaceFundamentalImpl_from_wrapper.
  rewrite Hd, operator_returns_variable by discriminate.
  cbn - [OpenCLType]. now rewrite Hconv.
Qed.

(** A wrapper of [float *] does not become a wrapper of [double *]. *)
Lemma scalar_wrapper_from_unrelated_wrapper_witness :
  construct_from_wrapper true (fun _ => without_default_constructor)
    convert_value
    (AddressSpaceImpl (t_pointer t_double) private_address_space)
    (AddressSpaceImpl (t_pointer t_float) global_address_space)
    2%positive 1%positive (<[1%positive := pointer None]> ∅)
  = ill_formed "cannot convert SomeType to T in assignment".
Proof.
  apply (scalar_wrapper_from_unrelated_wrapper true
           (fun _ => without_default_constructor)
           convert_value (t_pointer t_float) (t_pointer t_double)
           global_address_space private_address_space 2%positive 1%positive
           (<[1%positive := pointer None]> ∅)).
  - right. exists t_float. split; reflexivity.
  - reflexivity.
  - reflexivity.
  - reflexivity.
Defined.

(** ** From one address space to another *)



(** ** Types that cannot be default-initialised *)

(** The element-wise constructors of the array wrapper assign into a member
    that no initialiser names.  Over [E[N]] with an [E] that cannot be
    default-initialised (a class without default constructor, a const
    scalar, a const class that is not const-default-constructible), the
    wrapper cannot be built from an array, nor from an initializer list,
    nor by default: each is rejected when the program is compiled, whatever
    the source holds. *)
Theorem array_wrapper_needs_default_initializable_elements
  (dev : bool) (classes : string -> class_description)
  (convert : cpp.type -> cpp.type -> value -> value)
  (E : cpp.type) (N : nat) (AS : sycl.address_space)
  (this : address) (m : store) :
  default_initialize classes E = None ->
  let s := AddressSpaceImpl (t_array E N) AS in
  (forall v, exists diagnostic,
        construct_from_value dev classes convert s this v m
        = ill_formed diagnostic)
  /\ (forall list, exists diagnostic,
         construct_from_initializer_list dev classes s E this list m
         = ill_formed diagnostic)
  /\ exists diagnostic,
       default_construct dev classes s this m = ill_formed diagnostic.
Proof.
  intros HE s.
  assert (Hs : s = Specialization AddressSpaceArrayImpl (t_array E N) AS)
    by reflexivity.
  assert (HT : default_initialize classes (t_array E N) = None)
    by (simpl; now rewrite HE).
  repeat split.
  - intros v. unfold construct_from_value. subst s.
    replace (argument_T (AddressSpaceImpl (t_array E N) AS))
      with (t_array E N) by reflexivity.
    rewrite construct_from_expression_array.
    destruct (is_complete_object_type E); [| eauto].
    rewrite bool_decide_eq_true_2 by reflexivity.
    unfold AddressSpaceArrayImpl_from_array,
      AddressSpaceArrayImpl_from_elements.
    rewrite HT. destruct v; eauto.
  - intros list. subst s. rewrite construct_from_initializer_list_array.
    destruct (is_complete_object_type E); [| eauto].
    unfold AddressSpaceArrayImpl_from_elements.
    rewrite HT. eauto.
  - assert (Hb : bool_decide
                   (is_Some (default_initialize classes
                               (unqualified
                                  (OpenCLType dev (t_array E N) AS))))
                 = false).
    { rewrite unqualified_OpenCLType, HT.
      apply bool_decide_eq_false_2, is_Some_None. }
    unfold default_construct. rewrite Hs, instantiate_array_wrapper.
    destruct (is_complete_object_type E); [| eauto].
    cbn - [default_initialize OpenCLType].
    rewrite Hb. eauto.
Qed.

(** An array of three objects of a class that has no default constructor. *)
Lemma array_wrapper_needs_default_initializable_elements_witness :
  let s := AddressSpaceImpl (t_array (t_class "S") 3) global_address_space in
  let classes := fun _ : string => without_default_constructor in
  let convert := fun (_ _ : cpp.type) (x : value) => x in
  (forall v, exists diagnostic,
        construct_from_value false classes convert s 1%positive v ∅
        = ill_formed diagnostic)
  /\ (forall list, exists diagnostic,
         construct_from_initializer_list false classes s (t_class "S")
           1%positive list ∅
         = ill_formed diagnostic)
  /\ exists diagnostic,
       default_construct false classes s 1%positive ∅
       = ill_formed diagnostic.
Proof.
  apply (array_wrapper_needs_default_initializable_elements false
           (fun _ => without_default_constructor) (fun _ _ x => x)
           (t_class "S") 3 global_address_space 1%positive ∅).
  reflexivity.
Defined.

(** An array of const objects of a class with a user-provided default
    constructor can be default-initialised: the array wrapper over it is
    default-constructed, and cannot be built from a list, whose elements
    would be assigned to const elements. *)
Example array_of_const_objects :
  let classes := fun _ : string => with_default_constructor "S" [integer 5] in
  let E := t_const (t_class "S") in
  let s := AddressSpaceImpl (t_array E 2) global_address_space in
  default_construct false classes s 1%positive ∅
  = ok (<[1%positive := array [object "S" [integer 5];
                               object "S" [integer 5]]]> ∅)
  /\ construct_from_initializer_list false classes s E 1%positive
       [object "S" [integer 1]] ∅
     = ill_formed "the elements of variable cannot be assigned".
Proof. split; reflexivity. Qed.



(** ** The length of the stored array *)

Lemma copy_keeps_the_length (source destination result : list value) (i : nat) :
  std.copy source destination i = Some result ->
  length result = length destination.
Proof.
  revert destination i.
  induction source as [| x rest IH]; intros destination i; simpl.
  - now intros [= <-].
  - destruct (decide (i < length destination)%nat); [| discriminate].
    intros H. apply IH in H. now rewrite length_insert in H.
Qed.

(** However an array wrapper over [E[N]] is built by default, from a value
    or from an initializer list, and whatever the source holds (a list
    shorter than the array, say), if the construction succeeds the storage
    holds an array of exactly [N] elements: no constructor makes the array
    shorter or longer. *)
Theorem array_wrapper_keeps_its_length
  (dev : bool) (classes : string -> class_description)
  (convert : cpp.type -> cpp.type -> value -> value)
  (E : cpp.type) (N : nat) (AS : sycl.address_space)
  (this : address) (m m' : store) :
  let s := AddressSpaceImpl (t_array E N) AS in
  (exists v, construct_from_value dev classes convert s this v m = ok m')
  \/ (exists list,
         construct_from_initializer_list dev classes s E this list m = ok m')
  \/ default_construct dev classes s this m = ok m' ->
  exists stored, m' !! this = Some (array stored) /\ length stored = N.
Proof.
  intros s.
  assert (Hs : s = Specialization AddressSpaceArrayImpl (t_array E N) AS)
    by reflexivity.
  assert (Hel : forall source,
             AddressSpaceArrayImpl_from_elements classes (t_array E N) this
               source m = ok m' ->
             exists stored,
               m' !! this = Some (array stored) /\ length stored = N).
  { intros source. unfold AddressSpaceArrayImpl_from_elements.
    destruct (default_initialize classes (t_array E N))
      as [[| | | | initial |] |] eqn:Hinit; try discriminate.
    destruct (is_copy_assignable classes (std.remove_extent_t (t_array E N)));
      [| discriminate].
    destruct (std.copy source initial 0) as [result |] eqn:Hcopy;
      [| discriminate].
    intros [= <-]. exists result. split.
    - unfold store, address in *. now rewrite lookup_insert_eq.
    - rewrite (copy_keeps_the_length _ _ _ _ Hcopy).
      eapply default_initialize_array, Hinit. }
  intros [(v & H) | [(list & H) | H]].
  - unfold construct_from_value in H. subst s.
    replace (argument_T (AddressSpaceImpl (t_array E N) AS))
      with (t_array E N) in H by reflexivity.
    rewrite construct_from_expression_array in H.
    destruct (is_complete_object_type E); [| discriminate].
    rewrite bool_decide_eq_true_2 in H by reflexivity.
    unfold AddressSpaceArrayImpl_from_array in H.
    destruct v; try discriminate. eauto.
  - subst s. rewrite construct_from_initializer_list_array in H.
    destruct (is_complete_object_type E); [| discriminate]. eauto.
  - destruct (default_initialize classes (t_array E N)) as [d |] eqn:Hinit.
    + destruct (default_construct_selected dev classes (t_array E N) AS d this m
                  Hinit) as [_ Hr].
      fold s in Hr. rewrite Hr in H. injection H as <-.
      simpl in Hinit. destruct (default_initialize classes E); [| discriminate].
      injection Hinit as <-. exists (replicate N v). split.
      * unfold store, address in *. now rewrite lookup_insert_eq.
      * apply length_replicate.
    + exfalso. unfold default_construct in H.
      rewrite Hs, instantiate_array_wrapper in H.
      destruct (is_complete_object_type E); [| discriminate].
      cbn - [default_initialize OpenCLType] in H.
      rewrite unqualified_OpenCLType, Hinit in H.
      rewrite (bool_decide_eq_false_2 (is_Some None)) in H
        by apply is_Some_None.
      discriminate.
Qed.

Lemma array_wrapper_keeps_its_length_witness :
  let s := AddressSpaceImpl (t_array t_int 3) constant_address_space in
  let m' : store := <[1%positive := array [integer 1; indeterminate;
                                           indeterminate]]> ∅ in
  exists stored, m' !! 1%positive = Some (array stored)
                 /\ length stored = 3%nat.
Proof.
  apply (array_wrapper_keeps_its_length false
           (fun _ => without_default_constructor)
           (fun _ _ x => x) t_int 3 constant_address_space 1%positive ∅
           (<[1%positive := array [integer 1; indeterminate;
                                   indeterminate]]> ∅)).
  right. left. exists [integer 1]. reflexivity.
Defined.
